(** * UC8179 partial refresh ([partial-refresh.h]): model and properties

    The routine [updatePartial] of [src/arduino/epaper-client/partial-refresh.h]
    talks to three things: the display handle ([EPaper*]), the byte memory
    behind the framebuffer pointer, and the busy line of the panel.  The
    model below threads one [world] through the routine; every call on the
    handle that reaches the hardware is appended to the world's [trace]. *)

From Stdlib Require Import ZArith List Lia Bool.
From Stdlib Require Import Strings.Byte.
Import ListNotations.
Open Scope Z_scope.

(** ** C integer arithmetic used by the routine *)

Module CInt.

Definition INT_MIN : Z := - 2 ^ 31.
Definition INT_MAX : Z := 2 ^ 31 - 1.

(** Two's complement reduction to a 32-bit [int]. *)
Definition to_int (z : Z) : Z := (z + 2 ^ 31) mod 2 ^ 32 - 2 ^ 31.

(** Conversion to [uint8_t], as happens at the parameter of
    [writecommand] and [writedata]. *)
Definition to_uint8 (z : Z) : Z := z mod 256.

(** [a * b] on [int]. *)
Definition int_mul (a b : Z) : Z := to_int (a * b).

(** [a / b] on [int]: C division truncates toward zero. *)
Definition int_div (a b : Z) : Z := to_int (Z.quot a b).

(** [~a] on [int]. *)
Definition int_not (a : Z) : Z := Z.lnot a.

Definition in_int (z : Z) : Prop := INT_MIN <= z <= INT_MAX.

Definition in_int16 (z : Z) : Prop := - 2 ^ 15 <= z <= 2 ^ 15 - 1.

End CInt.
Import CInt.

(** ** The hardware seen by the routine *)

(** The only pin the routine reads. *)
Inductive pin : Type := TFT_BUSY.

(** What the display and the clock observe, in program order. *)
Inductive event : Type :=
| EStartWrite
| EEndWrite
| ECommand (c : Z)
| EData (d : Z)
| EDelay (ms : Z).

Record world : Type := mkWorld {
  mem : Z -> byte;            (* byte memory, by address *)
  level : pin -> nat -> Z;    (* value of the n-th [digitalRead] of a pin *)
  polls : nat;                (* number of [digitalRead] calls so far *)
  trace : list event          (* everything emitted so far, oldest first *)
}.

(** The display handle: what [frameBuffer(f)], [width()] and [height()]
    report.  A pointer is an address, the null pointer is [0]. *)
Record EPaper : Type := mkEPaper {
  frameBuffer : Z -> Z;
  width : Z;
  height : Z
}.

(** ** A state monad with a "still spinning" outcome

    [Done a w] is a normal return.  [Hang w] says the computation was still
    inside the polling loop when the step budget ran out; [w] is the world
    reached so far, so what was emitted before the loop is never lost. *)

Inductive result (A : Type) : Type :=
| Done (a : A) (w : world)
| Hang (w : world).
Arguments Done {A} a w.
Arguments Hang {A} w.

Definition M (A : Type) : Type := world -> result A.

Definition ret {A} (a : A) : M A := fun w => Done a w.

Definition bind {A B} (m : M A) (f : A -> M B) : M B :=
  fun w => match m w with
           | Done a w' => f a w'
           | Hang w' => Hang w'
           end.

Notation "x <- m ;; k" := (bind m (fun x => k))
  (at level 61, m at next level, right associativity).
Notation "m ;; k" := (bind m (fun _ => k))
  (at level 61, right associativity).

Definition final {A} (r : result A) : world :=
  match r with Done _ w => w | Hang w => w end.

Definition returned {A} (r : result A) : bool :=
  match r with Done _ _ => true | Hang _ => false end.

(** ** Primitive operations *)

Definition emits (es : list event) (w : world) : world :=
  mkWorld (mem w) (level w) (polls w) (trace w ++ es).

Definition emit (e : event) : M unit := fun w => Done tt (emits [e] w).

Definition startWrite : M unit := emit EStartWrite.
Definition endWrite : M unit := emit EEndWrite.
Definition writecommand (c : Z) : M unit := emit (ECommand (to_uint8 c)).
Definition writedata (d : Z) : M unit := emit (EData (to_uint8 d)).
Definition delay (ms : Z) : M unit := emit (EDelay ms).

(** [p[i]] for a [uint8_t* p]: the byte at address [p + i], promoted to
    [int]. *)
Definition load (p i : Z) : M Z :=
  fun w => Done (Z.of_N (Byte.to_N (mem w (p + i)))) w.

(** [digitalRead(p)]: the next reading of the pin. *)
Definition digitalRead (p : pin) : M Z :=
  fun w => Done (level w p (polls w))
                (mkWorld (mem w) (level w) (S (polls w)) (trace w)).

(** ** The routine *)

(** [for (int i = start; i < bound; i++) body(i)].  The first argument only
    bounds the recursion; it is called with [bound - start] (or [0] when the
    bound is below the start), which the test [i < bound] never outlives. *)
Fixpoint for_lt (n : nat) (i bound : Z) (body : Z -> M unit) : M unit :=
  match n with
  | O => ret tt
  | S n' =>
      if i <? bound
      then body i ;; for_lt n' (i + 1) bound body
      else ret tt
  end.

(** [while (digitalRead(TFT_BUSY) == 0) { delay(10); }] with a budget of
    [fuel] readings. *)
Fixpoint wait_busy (fuel : nat) : M unit :=
  match fuel with
  | O => fun w => Hang w
  | S fuel' =>
      v <- digitalRead TFT_BUSY ;;
      if v =? 0
      then delay 10 ;; wait_busy fuel'
      else ret tt
  end.

(** [int bufSize = (width * height) / 8;] *)
Definition bufSize (epd : EPaper) : Z :=
  int_div (int_mul (width epd) (height epd)) 8.

Definition updatePartial (fuel : nat) (epd : EPaper) : M unit :=
  let fb := frameBuffer epd 0 in
  if fb =? 0 then ret tt else
  let bufSize := bufSize epd in
  startWrite ;;
  writecommand 0x00 ;;
  writedata 0x1F ;;
  writecommand 0x50 ;;
  writedata 0x10 ;;
  writedata 0x07 ;;
  writecommand 0xE0 ;;
  writedata 0x02 ;;
  writecommand 0xE5 ;;
  writedata 0x5A ;;
  writecommand 0x13 ;;
  for_lt (Z.to_nat bufSize) 0 bufSize
         (fun i => b <- load fb i ;; writedata (int_not b)) ;;
  writecommand 0x12 ;;
  delay 10 ;;
  wait_busy fuel ;;
  endWrite.

(** ** Observers of a run *)

(** The events a call appended to the trace it started from. *)
Definition emitted (fuel : nat) (epd : EPaper) (w : world) : list event :=
  skipn (length (trace w)) (trace (final (updatePartial fuel epd w))).

(** The events that put a byte on the bus. *)
Definition is_bus (e : event) : bool :=
  match e with
  | ECommand _ | EData _ => true
  | _ => false
  end.

Definition bus_events (es : list event) : list event := filter is_bus es.

(** The command bytes alone, in order. *)
Fixpoint commands (es : list event) : list Z :=
  match es with
  | [] => []
  | ECommand c :: es' => c :: commands es'
  | _ :: es' => commands es'
  end.

(** The leading data bytes of a stream, up to the next command. *)
Fixpoint data_run (es : list event) : list Z :=
  match es with
  | EData d :: es' => d :: data_run es'
  | _ => []
  end.

(** The data bytes that follow the first occurrence of command [c]. *)
Fixpoint data_after (c : Z) (es : list event) : list Z :=
  match es with
  | [] => []
  | ECommand c' :: es' => if c' =? c then data_run es' else data_after c es'
  | _ :: es' => data_after c es'
  end.

(** The parameter bytes that directly follow the first command [c]. *)
Definition parameters (c : Z) (es : list event) : list Z :=
  data_after c (bus_events es).

(** Number of transactions opened minus number closed. *)
Fixpoint open_transactions (es : list event) : Z :=
  match es with
  | [] => 0
  | EStartWrite :: es' => 1 + open_transactions es'
  | EEndWrite :: es' => open_transactions es' - 1
  | _ :: es' => open_transactions es'
  end.

(** An event other than the two ends of a transaction. *)
Definition not_bracket (e : event) : Prop :=
  e <> EStartWrite /\ e <> EEndWrite.

(** The framebuffer byte [fb[i]] as the routine reads it. *)
Definition source_byte (w : world) (epd : EPaper) (i : Z) : Z :=
  Z.of_N (Byte.to_N (mem w (frameBuffer epd 0 + i))).

(** ** What the pieces of the routine do *)

(** The byte put on the bus for framebuffer byte [p[i]]. *)
Definition sent_byte (m : Z -> byte) (p i : Z) : Z :=
  to_uint8 (int_not (Z.of_N (Byte.to_N (m (p + i))))).

Fixpoint image_bytes (m : Z -> byte) (p i : Z) (n : nat) : list Z :=
  match n with
  | O => []
  | S n' => sent_byte m p i :: image_bytes m p (i + 1) n'
  end.

(** The configuration sequence of the source, lines 37 to 48. *)
Definition config_sequence : list event :=
  [ECommand 0x00; EData 0x1F;
   ECommand 0x50; EData 0x10; EData 0x07;
   ECommand 0xE0; EData 0x02;
   ECommand 0xE5; EData 0x5A].

(** Everything emitted before the polling loop is entered. *)
Definition before_wait (m : Z -> byte) (epd : EPaper) : list event :=
  EStartWrite :: config_sequence ++ ECommand 0x13 ::
    map EData (image_bytes m (frameBuffer epd 0) 0 (Z.to_nat (bufSize epd)))
    ++ [ECommand 0x12; EDelay 10].

(** How many busy readings the loop consumes with [fuel] readings allowed,
    reading [lv] from index [s]. *)
Fixpoint busy_prefix (fuel : nat) (lv : nat -> Z) (s : nat) : nat :=
  match fuel with
  | O => O
  | S fuel' => if lv s =? 0 then S (busy_prefix fuel' lv (S s)) else O
  end.

(** Whether a ready reading shows up within [fuel] readings from [s]. *)
Fixpoint ready_within (fuel : nat) (lv : nat -> Z) (s : nat) : bool :=
  match fuel with
  | O => false
  | S fuel' => if lv s =? 0 then ready_within fuel' lv (S s) else true
  end.

(** ** Concrete handles and worlds *)

Module Demo.

(** A 16 x 2 panel: four framebuffer bytes at address [4096]. *)
Definition small : EPaper := mkEPaper (fun _ => 4096) 16 2.

(** The 800 x 480 panel of [xiao-7.5-epaper/driver.h]. *)
Definition panel : EPaper := mkEPaper (fun _ => 4096) 800 480.

(** A handle whose framebuffer was never allocated. *)
Definition unready : EPaper := mkEPaper (fun _ => 0) 800 480.

(** A handle with a framebuffer and an empty geometry. *)
Definition empty : EPaper := mkEPaper (fun _ => 4096) 0 480.

Definition memory (a : Z) : byte :=
if a =? 4096 then x00
else if a =? 4097 then xff
else if a =? 4098 then xa5
else x0f.

(** The panel is busy for the first two readings, then ready. *)
Definition busy_twice (p : pin) (n : nat) : Z :=
if (n <? 2)%nat then 0 else 1.

Definition never_ready (p : pin) (n : nat) : Z := 0.

Definition w0 : world := mkWorld memory busy_twice 0 [].
Definition stuck : world := mkWorld memory never_ready 0 [].

End Demo.

(** ** Time spent and repeated calls *)

(** Milliseconds spent in [delay] over a run. *)
Fixpoint total_delay (es : list event) : Z :=
  match es with
  | [] => 0
  | EDelay ms :: es' => ms + total_delay es'
  | _ :: es' => total_delay es'
  end.

(** Two refresh cycles in a row on one handle, as a sketch's loop makes
    them: the second call starts in the world the first one returns. *)
Definition updatePartial_twice (fuel1 fuel2 : nat) (epd : EPaper) : M unit :=
  updatePartial fuel1 epd ;; updatePartial fuel2 epd.

(** * Lemmas *)

Section Pieces.

Lemma emits_emits (a b : list event) (w : world) :
  emits b (emits a w) = emits (a ++ b) w.
Proof.
  unfold emits; simpl. now rewrite app_assoc.
Qed.

Lemma bind_startWrite {B} (k : unit -> M B) (w : world) :
  bind startWrite k w = k tt (emits [EStartWrite] w).
Proof. reflexivity. Qed.

Lemma bind_writecommand {B} (c : Z) (k : unit -> M B) (w : world) :
  bind (writecommand c) k w = k tt (emits [ECommand (to_uint8 c)] w).
Proof. reflexivity. Qed.

Lemma bind_writedata {B} (d : Z) (k : unit -> M B) (w : world) :
  bind (writedata d) k w = k tt (emits [EData (to_uint8 d)] w).
Proof. reflexivity. Qed.

Lemma bind_delay {B} (ms : Z) (k : unit -> M B) (w : world) :
  bind (delay ms) k w = k tt (emits [EDelay ms] w).
Proof. reflexivity. Qed.

Lemma bind_Done {A B} (m : M A) (k : A -> M B) (w w' : world) (a : A) :
  m w = Done a w' -> bind m k w = k a w'.
Proof. intros H. unfold bind. now rewrite H. Qed.

Lemma emits_nil (w : world) : emits [] w = w.
Proof.
  destruct w; unfold emits; simpl. now rewrite app_nil_r.
Qed.

Lemma for_lt_stream (fb bound : Z) :
  forall (n : nat) (i : Z) (w : world),
    n = Z.to_nat (bound - i) ->
    for_lt n i bound
           (fun i => b <- load fb i ;; writedata (int_not b)) w
    = Done tt (emits (map EData (image_bytes (mem w) fb i n)) w).
Proof.
  induction n as [|n IH]; intros i w Hn.
  - simpl. unfold ret. now rewrite emits_nil.
  - simpl for_lt.
    assert (Hlt : (i <? bound) = true) by (apply Z.ltb_lt; lia).
    rewrite Hlt. unfold bind at 1. unfold bind at 1.
    unfold load, writedata, emit.
    rewrite IH by lia. rewrite emits_emits. reflexivity.
Qed.

Lemma wait_busy_run :
  forall (fuel : nat) (w : world),
    wait_busy fuel w =
    let lv := level w TFT_BUSY in
    let k := busy_prefix fuel lv (polls w) in
    if ready_within fuel lv (polls w)
    then Done tt (mkWorld (mem w) (level w) (S (polls w + k))
                          (trace w ++ repeat (EDelay 10) k))
    else Hang (mkWorld (mem w) (level w) (polls w + k)%nat
                       (trace w ++ repeat (EDelay 10) k)).
Proof.
  induction fuel as [|fuel IH]; intros w.
  - simpl. destruct w; simpl. now rewrite app_nil_r, Nat.add_0_r.
  - cbn [wait_busy busy_prefix ready_within].
    unfold bind at 1. unfold digitalRead at 1.
    destruct (level w TFT_BUSY (polls w) =? 0) eqn:E.
    + unfold bind at 1. unfold delay, emit.
      rewrite IH. cbn [mem level polls trace emits].
      cbv zeta.
      destruct (ready_within fuel (level w TFT_BUSY) (S (polls w)));
        cbn [repeat]; rewrite <- app_assoc; cbn [app];
        rewrite <- ?Nat.add_succ_comm; reflexivity.
    + unfold ret. cbn [repeat]. now rewrite app_nil_r, Nat.add_0_r.
Qed.

End Pieces.

(** ** The shape of a whole run *)

Section Run.

Variable epd : EPaper.

Lemma updatePartial_null (fuel : nat) (w : world) :
  frameBuffer epd 0 = 0 -> updatePartial fuel epd w = Done tt w.
Proof.
  intros H. unfold updatePartial. rewrite H. reflexivity.
Qed.

Lemma updatePartial_enters_wait (fuel : nat) (w : world) :
  frameBuffer epd 0 <> 0 ->
  updatePartial fuel epd w
  = (wait_busy fuel ;; endWrite) (emits (before_wait (mem w) epd) w).
Proof.
  intros H. unfold updatePartial.
  apply Z.eqb_neq in H. rewrite H.
  cbv zeta. rewrite bind_startWrite.
  do 10 (rewrite ?bind_writecommand, ?bind_writedata, ?emits_emits).
  rewrite bind_Done with (a := tt)
    (w' := emits (map EData (image_bytes (mem w) (frameBuffer epd 0) 0
                               (Z.to_nat (bufSize epd))))
             (emits ([EStartWrite] ++ config_sequence ++ [ECommand 0x13]) w)).
  - rewrite bind_writecommand, bind_delay, !emits_emits.
    unfold before_wait. cbn [app]. rewrite <- !app_assoc. reflexivity.
  - rewrite for_lt_stream by (now rewrite Z.sub_0_r). reflexivity.
Qed.

Lemma updatePartial_run (fuel : nat) (w : world) :
  frameBuffer epd 0 <> 0 ->
  updatePartial fuel epd w =
  let lv := level w TFT_BUSY in
  let k := busy_prefix fuel lv (polls w) in
  if ready_within fuel lv (polls w)
  then Done tt (mkWorld (mem w) (level w) (S (polls w + k))
                  (trace w ++ before_wait (mem w) epd
                     ++ repeat (EDelay 10) k ++ [EEndWrite]))
  else Hang (mkWorld (mem w) (level w) (polls w + k)%nat
               (trace w ++ before_wait (mem w) epd
                  ++ repeat (EDelay 10) k)).
Proof.
  intros H. rewrite updatePartial_enters_wait by assumption.
  unfold bind. rewrite wait_busy_run.
  cbn [mem level polls trace emits]. cbv zeta.
  destruct (ready_within fuel (level w TFT_BUSY) (polls w)).
  - unfold endWrite, emit, emits. cbn [mem level polls trace].
    now rewrite <- !app_assoc.
  - now rewrite <- !app_assoc.
Qed.

Lemma emitted_null (fuel : nat) (w : world) :
  frameBuffer epd 0 = 0 -> emitted fuel epd w = [].
Proof.
  intros H. unfold emitted. rewrite updatePartial_null by assumption.
  simpl. apply skipn_all.
Qed.

Lemma emitted_run (fuel : nat) (w : world) :
  frameBuffer epd 0 <> 0 ->
  emitted fuel epd w =
  before_wait (mem w) epd
    ++ repeat (EDelay 10) (busy_prefix fuel (level w TFT_BUSY) (polls w))
    ++ (if ready_within fuel (level w TFT_BUSY) (polls w)
        then [EEndWrite] else []).
Proof.
  intros H. unfold emitted. rewrite updatePartial_run by assumption.
  cbv zeta.
  destruct (ready_within fuel (level w TFT_BUSY) (polls w));
    cbn [final trace].
  - rewrite skipn_app, skipn_all, Nat.sub_diag. reflexivity.
  - rewrite skipn_app, skipn_all, Nat.sub_diag, app_nil_r. reflexivity.
Qed.

Lemma returned_run (fuel : nat) (w : world) :
  frameBuffer epd 0 <> 0 ->
  returned (updatePartial fuel epd w)
  = ready_within fuel (level w TFT_BUSY) (polls w).
Proof.
  intros H. rewrite updatePartial_run by assumption. cbv zeta.
  now destruct (ready_within fuel (level w TFT_BUSY) (polls w)).
Qed.

End Run.

(** ** Facts about the observers *)

Section Observers.

Lemma bus_events_app (a b : list event) :
  bus_events (a ++ b) = bus_events a ++ bus_events b.
Proof. apply filter_app. Qed.

Lemma bus_events_data (ds : list Z) :
  bus_events (map EData ds) = map EData ds.
Proof.
  unfold bus_events.
  induction ds as [|d ds IH]; simpl; [reflexivity | now f_equal].
Qed.

Lemma bus_events_delays (ms : Z) (k : nat) :
  bus_events (repeat (EDelay ms) k) = [].
Proof.
  induction k as [|k IH]; simpl; [reflexivity | exact IH].
Qed.

Lemma bus_events_before_wait (m : Z -> byte) (epd : EPaper) :
  bus_events (before_wait m epd)
  = config_sequence ++ ECommand 0x13 ::
      map EData (image_bytes m (frameBuffer epd 0) 0
                             (Z.to_nat (bufSize epd)))
      ++ [ECommand 0x12].
Proof.
  unfold before_wait. cbn [bus_events filter is_bus config_sequence app].
  repeat f_equal.
  change (filter is_bus) with bus_events.
  rewrite bus_events_app, bus_events_data. reflexivity.
Qed.

Lemma before_wait_split (m : Z -> byte) (epd : EPaper) :
  before_wait m epd
  = EStartWrite :: bus_events (before_wait m epd) ++ [EDelay 10].
Proof.
  rewrite bus_events_before_wait. unfold before_wait.
  f_equal. rewrite <- app_assoc. cbn [app]. f_equal. f_equal.
  now rewrite <- app_assoc.
Qed.

Lemma data_run_data (ds : list Z) (c : Z) (es : list event) :
  data_run (map EData ds ++ ECommand c :: es) = ds.
Proof.
  induction ds as [|d ds IH]; simpl; [reflexivity | now rewrite IH].
Qed.

Lemma image_bytes_length (m : Z -> byte) (p : Z) :
  forall (n : nat) (i : Z), length (image_bytes m p i n) = n.
Proof.
  induction n as [|n IH]; intros i; simpl; [reflexivity | now rewrite IH].
Qed.

Lemma image_bytes_nth (m : Z -> byte) (p : Z) :
  forall (n : nat) (i : Z) (k : nat),
    (k < n)%nat ->
    nth_error (image_bytes m p i n) k = Some (sent_byte m p (i + Z.of_nat k)).
Proof.
  induction n as [|n IH]; intros i k Hk; [lia|].
  destruct k as [|k]; simpl image_bytes.
  - simpl. now rewrite Z.add_0_r.
  - cbn [nth_error]. rewrite IH by lia. f_equal. f_equal. lia.
Qed.

(** The loop applies [~] to an [int] and the parameter of [writedata]
    keeps the low eight bits: on a byte that is [255 - b]. *)
Lemma sent_byte_complement (m : Z -> byte) (p i : Z) :
  sent_byte m p i = 255 - Z.of_N (Byte.to_N (m (p + i))).
Proof.
  unfold sent_byte, to_uint8, int_not.
  pose proof (Byte.to_N_bounded (m (p + i))) as Hb.
  set (b := Z.of_N (Byte.to_N (m (p + i)))) in *.
  assert (0 <= b <= 255) by (subst b; lia).
  unfold Z.lnot. rewrite <- Z.sub_1_r.
  replace (- b - 1) with ((255 - b) + (-1) * 256) by lia.
  rewrite Z.mod_add by lia. apply Z.mod_small. lia.
Qed.

Lemma sent_byte_bits (m : Z -> byte) (p i k : Z) :
  0 <= k < 8 ->
  Z.testbit (sent_byte m p i) k
  = negb (Z.testbit (Z.of_N (Byte.to_N (m (p + i)))) k).
Proof.
  intros Hk. unfold sent_byte, to_uint8, int_not.
  change 256 with (2 ^ 8).
  rewrite Z.mod_pow2_bits_low by lia.
  apply Z.lnot_spec. lia.
Qed.

End Observers.

(** ** The busy line and the transfer size *)

Section BusyLine.

Variable lv : nat -> Z.

Lemma ready_within_sound :
  forall (fuel s : nat),
    ready_within fuel lv s = true ->
    exists k, (k < fuel)%nat /\ lv (s + k)%nat <> 0.
Proof.
  induction fuel as [|fuel IH]; intros s H; [discriminate|].
  simpl in H. destruct (lv s =? 0) eqn:E.
  - destruct (IH _ H) as [k [Hk Hr]]. exists (S k). split; [lia|].
    now rewrite <- Nat.add_succ_comm.
  - exists O. split; [lia|]. rewrite Nat.add_0_r. now apply Z.eqb_neq.
Qed.

Lemma ready_within_complete :
  forall (fuel s k : nat),
    (k < fuel)%nat -> lv (s + k)%nat <> 0 ->
    ready_within fuel lv s = true.
Proof.
  induction fuel as [|fuel IH]; intros s k Hk Hr; [lia|].
  simpl. destruct (lv s =? 0) eqn:E; [|reflexivity].
  destruct k as [|k].
  - rewrite Nat.add_0_r in Hr. apply Z.eqb_eq in E. contradiction.
  - apply (IH (S s) k); [lia|]. now rewrite Nat.add_succ_comm.
Qed.

Lemma ready_within_all_busy (fuel s : nat) :
  (forall n, lv (s + n)%nat = 0) -> ready_within fuel lv s = false.
Proof.
  intros Hall. destruct (ready_within fuel lv s) eqn:E; [|reflexivity].
  destruct (ready_within_sound _ _ E) as [k [_ Hr]].
  now specialize (Hall k).
Qed.

(** Once a ready reading is within reach, more fuel changes nothing. *)
Lemma busy_prefix_stable :
  forall (fuel fuel' s : nat),
    ready_within fuel lv s = true -> (fuel <= fuel')%nat ->
    ready_within fuel' lv s = true
    /\ busy_prefix fuel' lv s = busy_prefix fuel lv s.
Proof.
  induction fuel as [|fuel IH]; intros fuel' s H Hle; [discriminate|].
  destruct fuel' as [|fuel']; [lia|].
  simpl in *. destruct (lv s =? 0).
  - destruct (IH fuel' (S s) H) as [H1 H2]; [lia|]. now rewrite H1, H2.
  - now split.
Qed.

Lemma busy_prefix_le (fuel s : nat) : (busy_prefix fuel lv s <= fuel)%nat.
Proof.
  revert s. induction fuel as [|fuel IH]; intros s; simpl; [lia|].
  destruct (lv s =? 0); [specialize (IH (S s))|]; lia.
Qed.

Lemma not_ready_spins :
  forall (fuel s : nat),
    ready_within fuel lv s = false -> busy_prefix fuel lv s = fuel.
Proof.
  induction fuel as [|fuel IH]; intros s H; [reflexivity|].
  simpl in *. destruct (lv s =? 0); [|discriminate].
  now rewrite IH.
Qed.

(** A ready reading within reach is found after [busy_prefix] busy ones. *)
Lemma ready_within_first :
  forall (fuel s : nat),
    ready_within fuel lv s = true ->
    (busy_prefix fuel lv s < fuel)%nat
    /\ lv (s + busy_prefix fuel lv s)%nat <> 0
    /\ forall j, (j < busy_prefix fuel lv s)%nat -> lv (s + j)%nat = 0.
Proof.
  induction fuel as [|fuel IH]; intros s H; [discriminate|].
  cbn [ready_within busy_prefix] in *.
  destruct (lv s =? 0) eqn:E.
  - destruct (IH (S s) H) as [Hn [Hr Hb]]. split; [lia|]. split.
    + now rewrite <- Nat.add_succ_comm.
    + intros [|j] Hj.
      * rewrite Nat.add_0_r. now apply Z.eqb_eq.
      * rewrite <- Nat.add_succ_comm. apply Hb. lia.
  - split; [lia|]. split.
    + rewrite Nat.add_0_r. now apply Z.eqb_neq.
    + intros j Hj. lia.
Qed.

Lemma not_ready_all_busy (fuel s : nat) :
  ready_within fuel lv s = false ->
  forall j, (j < fuel)%nat -> lv (s + j)%nat = 0.
Proof.
  intros H j Hj.
  destruct (Z.eq_dec (lv (s + j)%nat) 0) as [E|E]; [exact E|].
  rewrite (ready_within_complete fuel s j Hj E) in H. discriminate.
Qed.

End BusyLine.

Section TransferSize.

Lemma to_int_id (z : Z) : in_int z -> to_int z = z.
Proof.
  unfold in_int, INT_MIN, INT_MAX, to_int. intros H.
  rewrite Z.mod_small; lia.
Qed.

Lemma to_int_in_int (z : Z) : in_int (to_int z).
Proof.
  unfold in_int, INT_MIN, INT_MAX, to_int.
  pose proof (Z.mod_pos_bound (z + 2 ^ 31) (2 ^ 32)). lia.
Qed.

Lemma to_int_mod8 (z : Z) : to_int z mod 8 = z mod 8.
Proof.
  unfold to_int.
  rewrite (Z.mod_eq (z + 2 ^ 31) (2 ^ 32)) by lia.
  replace (z + 2 ^ 31 - 2 ^ 32 * ((z + 2 ^ 31) / 2 ^ 32) - 2 ^ 31)
    with (z + (- (2 ^ 29 * ((z + 2 ^ 31) / 2 ^ 32))) * 8) by lia.
  apply Z.mod_add. lia.
Qed.

Lemma int_div_8 (p : Z) : in_int p -> int_div p 8 = Z.quot p 8.
Proof.
  intros H. unfold int_div. apply to_int_id.
  unfold in_int, INT_MIN, INT_MAX in *.
  destruct (Z.le_gt_cases 0 p).
  - pose proof (Z.quot_pos p 8). pose proof (Z.quot_le_upper_bound p 8 p).
    lia.
  - pose proof (Z.quot_opp_l p 8). pose proof (Z.quot_pos (- p) 8).
    pose proof (Z.quot_le_upper_bound (- p) 8 (- p)). lia.
Qed.

Lemma quot_8_exact (p : Z) : p mod 8 = 0 -> Z.quot p 8 * 8 = p.
Proof.
  intros H. pose proof (Z.quot_rem' p 8) as Hq.
  assert (Hr : Z.rem p 8 = 0).
  { apply Z.rem_divide; [lia|]. apply Z.mod_divide; [lia|]. exact H. }
  lia.
Qed.

Lemma bufSize_quot (epd : EPaper) :
  bufSize epd = Z.quot (int_mul (width epd) (height epd)) 8.
Proof.
  unfold bufSize. apply int_div_8. apply to_int_in_int.
Qed.

(** [int16_t] dimensions, as the graphics library declares them, cannot
    overflow the [int] product. *)
Lemma int16_product_in_int (a b : Z) :
  in_int16 a -> in_int16 b -> in_int (a * b).
Proof.
  unfold in_int16, in_int, INT_MIN, INT_MAX. intros Ha Hb. nia.
Qed.

End TransferSize.

(** ** The bytes on the bus *)

Section Bus.

Variable epd : EPaper.
Hypothesis fb_not_null : frameBuffer epd 0 <> 0.

Lemma bus_events_emitted (fuel : nat) (w : world) :
  bus_events (emitted fuel epd w)
  = config_sequence ++ ECommand 0x13 ::
      map EData (image_bytes (mem w) (frameBuffer epd 0) 0
                             (Z.to_nat (bufSize epd)))
      ++ [ECommand 0x12].
Proof.
  rewrite emitted_run by assumption.
  rewrite !bus_events_app, bus_events_before_wait, bus_events_delays.
  destruct (ready_within fuel (level w TFT_BUSY) (polls w));
    cbn [bus_events filter is_bus]; now rewrite app_nil_r.
Qed.

Lemma data_after_emitted (fuel : nat) (w : world) :
  data_after 0x13 (bus_events (emitted fuel epd w))
  = image_bytes (mem w) (frameBuffer epd 0) 0 (Z.to_nat (bufSize epd)).
Proof.
  rewrite bus_events_emitted. unfold config_sequence.
  cbn [app data_after Z.eqb Pos.eqb]. apply data_run_data.
Qed.

End Bus.

Lemma image_bytes_ext (m1 m2 : Z -> byte) (p1 p2 : Z) :
  forall (n : nat) (i : Z),
    (forall j, i <= j < i + Z.of_nat n ->
               Z.of_N (Byte.to_N (m1 (p1 + j)))
               = Z.of_N (Byte.to_N (m2 (p2 + j)))) ->
    image_bytes m1 p1 i n = image_bytes m2 p2 i n.
Proof.
  induction n as [|n IH]; intros i H; simpl; [reflexivity|].
  f_equal.
  - unfold sent_byte. rewrite H by lia. reflexivity.
  - apply IH. intros j Hj. apply H. lia.
Qed.

(** ** Runs on concrete handles *)

Example small_run :
  emitted 5 Demo.small Demo.w0
  = [EStartWrite;
     ECommand 0x00; EData 0x1F;
     ECommand 0x50; EData 0x10; EData 0x07;
     ECommand 0xE0; EData 0x02;
     ECommand 0xE5; EData 0x5A;
     ECommand 0x13; EData 0xFF; EData 0x00; EData 0x5A; EData 0xF0;
     ECommand 0x12; EDelay 10;
     EDelay 10; EDelay 10;
     EEndWrite].
Proof. vm_compute. reflexivity. Qed.

Example small_returns : returned (updatePartial 3 Demo.small Demo.w0) = true.
Proof. vm_compute. reflexivity. Qed.

Example small_out_of_budget :
  returned (updatePartial 2 Demo.small Demo.w0) = false.
Proof. vm_compute. reflexivity. Qed.

Example stuck_run :
  emitted 3 Demo.small Demo.stuck
  = [EStartWrite;
     ECommand 0x00; EData 0x1F;
     ECommand 0x50; EData 0x10; EData 0x07;
     ECommand 0xE0; EData 0x02;
     ECommand 0xE5; EData 0x5A;
     ECommand 0x13; EData 0xFF; EData 0x00; EData 0x5A; EData 0xF0;
     ECommand 0x12; EDelay 10;
     EDelay 10; EDelay 10; EDelay 10].
Proof. vm_compute. reflexivity. Qed.

Example unready_run : updatePartial 3 Demo.unready Demo.w0 = Done tt Demo.w0.
Proof. reflexivity. Qed.

Example panel_bufSize : bufSize Demo.panel = 48000.
Proof. vm_compute. reflexivity. Qed.

(** ** Termination of the polling loop *)

Section Termination.

Variable epd : EPaper.
Hypothesis fb_not_null : frameBuffer epd 0 <> 0.

Lemma returns_with_fuel (fuel : nat) (w w' : world) :
  updatePartial fuel epd w = Done tt w' ->
  ready_within fuel (level w TFT_BUSY) (polls w) = true.
Proof.
  intros H. rewrite <- (returned_run epd fuel w) by assumption. now rewrite H.
Qed.

Lemma ready_gives_return (fuel : nat) (w : world) :
  ready_within fuel (level w TFT_BUSY) (polls w) = true ->
  exists w', updatePartial fuel epd w = Done tt w'.
Proof.
  intros H. rewrite updatePartial_run by assumption. cbv zeta.
  rewrite H. eexists. reflexivity.
Qed.

Lemma busy_gives_hang (fuel : nat) (w : world) :
  ready_within fuel (level w TFT_BUSY) (polls w) = false ->
  exists w', updatePartial fuel epd w = Hang w'.
Proof.
  intros H. rewrite updatePartial_run by assumption. cbv zeta.
  rewrite H. eexists. reflexivity.
Qed.

Lemma return_is_stable (fuel fuel' : nat) (w w' : world) :
  updatePartial fuel epd w = Done tt w' -> (fuel <= fuel')%nat ->
  updatePartial fuel' epd w = Done tt w'.
Proof.
  intros H Hle. pose proof (returns_with_fuel _ _ _ H) as Hr.
  destruct (busy_prefix_stable _ _ _ _ Hr Hle) as [Hr' Hk].
  rewrite updatePartial_run in H |- * by assumption. cbv zeta in *.
  rewrite Hr in H. rewrite Hr', Hk. exact H.
Qed.

End Termination.

(** ** The write transaction *)

Section Transaction.

Lemma open_transactions_app (a b : list event) :
  open_transactions (a ++ b) = open_transactions a + open_transactions b.
Proof.
  induction a as [|e a IH]; [reflexivity|].
  destruct e; cbn [open_transactions app]; rewrite IH; lia.
Qed.

Lemma open_transactions_inside (es : list event) :
  Forall not_bracket es -> open_transactions es = 0.
Proof.
  induction 1 as [|e es [Hs He] _ IH]; [reflexivity|].
  destruct e; cbn [open_transactions]; try assumption; contradiction.
Qed.

Lemma not_bracket_data (ds : list Z) : Forall not_bracket (map EData ds).
Proof.
  induction ds as [|d ds IH]; simpl; constructor; try assumption.
  split; discriminate.
Qed.

Lemma not_bracket_delays (ms : Z) (k : nat) :
  Forall not_bracket (repeat (EDelay ms) k).
Proof.
  induction k as [|k IH]; simpl; constructor; try assumption.
  split; discriminate.
Qed.

Lemma not_bracket_after_start (m : Z -> byte) (epd : EPaper) (k : nat) :
  Forall not_bracket (tl (before_wait m epd) ++ repeat (EDelay 10) k).
Proof.
  unfold before_wait, config_sequence. cbn [tl app].
  do 10 (apply Forall_cons; [split; discriminate|]).
  rewrite <- app_assoc.
  apply Forall_app; split; [apply not_bracket_data|].
  cbn [app].
  do 2 (apply Forall_cons; [split; discriminate|]).
  apply not_bracket_delays.
Qed.

End Transaction.

(** ** Commands and parameters *)

Section Commands.

Lemma commands_app (a b : list event) :
  commands (a ++ b) = commands a ++ commands b.
Proof.
  induction a as [|e a IH]; [reflexivity|].
  destruct e; cbn [commands app]; now rewrite IH.
Qed.

Lemma commands_data (ds : list Z) : commands (map EData ds) = [].
Proof.
  induction ds as [|d ds IH]; [reflexivity | exact IH].
Qed.

Lemma commands_blocks (blocks : list (Z * list Z)) :
  commands (flat_map (fun b => ECommand (fst b) :: map EData (snd b)) blocks)
  = map fst blocks.
Proof.
  induction blocks as [|[c ds] blocks IH]; [reflexivity|].
  cbn [flat_map fst snd map]. rewrite <- app_comm_cons.
  cbn [commands]. now rewrite commands_app, commands_data, IH.
Qed.

Lemma commands_emitted (epd : EPaper) (fuel : nat) (w : world) :
  frameBuffer epd 0 <> 0 ->
  commands (bus_events (emitted fuel epd w))
  = [0x00; 0x50; 0xE0; 0xE5; 0x13; 0x12].
Proof.
  intros Hfb. rewrite bus_events_emitted by assumption.
  unfold config_sequence. cbn [app commands].
  now rewrite commands_app, commands_data.
Qed.

Lemma commands_bus_events (es : list event) :
  commands (bus_events es) = commands es.
Proof.
  induction es as [|e es IH]; [reflexivity|].
  destruct e; cbn [bus_events filter is_bus commands];
    fold (bus_events es); now rewrite IH.
Qed.

Lemma data_after_data (c : Z) (ds : list Z) (es : list event) :
  data_after c (map EData ds ++ es) = data_after c es.
Proof.
  induction ds as [|d ds IH]; [reflexivity | exact IH].
Qed.

End Commands.

(** * Properties of [updatePartial] *)

(** C1.  With a non-null framebuffer, whatever the framebuffer holds and
    whatever the busy line does, the bytes put on the bus are exactly
    command 0x00 with parameter 0x1F, command 0x50 with parameters 0x10 and
    0x07, command 0xE0 with parameter 0x02, command 0xE5 with parameter
    0x5A, command 0x13, then [bufSize] data bytes (as many as the loop
    [for (i = 0; i < bufSize; i++)] has iterations), then command 0x12:
    nothing inserted, reordered or omitted. *)
Theorem updatePartial_command_sequence
    (epd : EPaper) (fuel : nat) (w : world) :
  frameBuffer epd 0 <> 0 ->
  (exists data : list Z,
      length data = Z.to_nat (bufSize epd)
      /\ bus_events (emitted fuel epd w)
         = [ECommand 0x00; EData 0x1F;
            ECommand 0x50; EData 0x10; EData 0x07;
            ECommand 0xE0; EData 0x02;
            ECommand 0xE5; EData 0x5A;
            ECommand 0x13]
           ++ map EData data
           ++ [ECommand 0x12])
  /\ commands (emitted fuel epd w) = [0x00; 0x50; 0xE0; 0xE5; 0x13; 0x12]
  /\ parameters 0x00 (emitted fuel epd w) = [0x1F]
  /\ parameters 0x50 (emitted fuel epd w) = [0x10; 0x07]
  /\ parameters 0xE0 (emitted fuel epd w) = [0x02]
  /\ parameters 0xE5 (emitted fuel epd w) = [0x5A]
  /\ length (parameters 0x13 (emitted fuel epd w)) = Z.to_nat (bufSize epd)
  /\ parameters 0x12 (emitted fuel epd w) = [].
Proof.
  intros Hfb. split; [|split].
  - exists (image_bytes (mem w) (frameBuffer epd 0) 0
                        (Z.to_nat (bufSize epd))).
    split.
    + apply image_bytes_length.
    + rewrite bus_events_emitted by assumption. reflexivity.
  - rewrite <- commands_bus_events. now apply commands_emitted.
  - unfold parameters.
    rewrite (data_after_emitted epd Hfb), image_bytes_length.
    rewrite bus_events_emitted by assumption.
    unfold config_sequence. cbn [app data_after data_run Z.eqb Pos.eqb].
    repeat split.
    rewrite data_after_data. reflexivity.
Qed.

Lemma updatePartial_command_sequence_witness :
  frameBuffer Demo.small 0 <> 0
  /\ (exists data : list Z,
         length data = Z.to_nat (bufSize Demo.small)
         /\ bus_events (emitted 5 Demo.small Demo.w0)
            = [ECommand 0x00; EData 0x1F;
               ECommand 0x50; EData 0x10; EData 0x07;
               ECommand 0xE0; EData 0x02;
               ECommand 0xE5; EData 0x5A;
               ECommand 0x13]
              ++ map EData data
              ++ [ECommand 0x12])
  /\ commands (emitted 5 Demo.small Demo.w0)
     = [0x00; 0x50; 0xE0; 0xE5; 0x13; 0x12]
  /\ parameters 0x00 (emitted 5 Demo.small Demo.w0) = [0x1F]
  /\ parameters 0x50 (emitted 5 Demo.small Demo.w0) = [0x10; 0x07]
  /\ parameters 0xE0 (emitted 5 Demo.small Demo.w0) = [0x02]
  /\ parameters 0xE5 (emitted 5 Demo.small Demo.w0) = [0x5A]
  /\ length (parameters 0x13 (emitted 5 Demo.small Demo.w0))
     = Z.to_nat (bufSize Demo.small)
  /\ parameters 0x12 (emitted 5 Demo.small Demo.w0) = [].
Proof.
  split.
  - simpl. lia.
  - apply (updatePartial_command_sequence Demo.small 5 Demo.w0). simpl. lia.
Defined.

(** C2.  With a non-null framebuffer, the data bytes that follow command
    0x13 are [bufSize] many, and the [i]-th of them, for every [i] in
    [0, bufSize), is the bitwise complement of framebuffer byte [i]: a byte
    again, [255 - source[i]], each of its eight bits the negation of the
    source bit. *)
Theorem transmitted_bytes_are_complements
    (epd : EPaper) (fuel : nat) (w : world) :
  frameBuffer epd 0 <> 0 ->
  length (data_after 0x13 (bus_events (emitted fuel epd w)))
  = Z.to_nat (bufSize epd)
  /\ forall i : Z,
       0 <= i < bufSize epd ->
       exists t : Z,
         nth_error (data_after 0x13 (bus_events (emitted fuel epd w)))
                   (Z.to_nat i) = Some t
         /\ 0 <= t < 256
         /\ t = 255 - source_byte w epd i
         /\ forall k : Z,
              0 <= k < 8 ->
              Z.testbit t k = negb (Z.testbit (source_byte w epd i) k).
Proof.
  intros Hfb. rewrite data_after_emitted by assumption. split.
  - apply image_bytes_length.
  - intros i Hi.
    exists (sent_byte (mem w) (frameBuffer epd 0) i).
    rewrite image_bytes_nth by lia.
    rewrite Z.add_0_l, Z2Nat.id by lia.
    repeat split.
    + unfold sent_byte, to_uint8. apply Z.mod_pos_bound. lia.
    + unfold sent_byte, to_uint8. apply Z.mod_pos_bound. lia.
    + apply sent_byte_complement.
    + intros k Hk. now apply sent_byte_bits.
Qed.

Lemma transmitted_bytes_are_complements_witness :
  frameBuffer Demo.small 0 <> 0
  /\ 0 <= 2 < bufSize Demo.small
  /\ length (data_after 0x13 (bus_events (emitted 5 Demo.small Demo.w0)))
     = Z.to_nat (bufSize Demo.small)
  /\ exists t : Z,
       nth_error (data_after 0x13 (bus_events (emitted 5 Demo.small Demo.w0)))
                 (Z.to_nat 2) = Some t
       /\ 0 <= t < 256
       /\ t = 255 - source_byte Demo.w0 Demo.small 2
       /\ forall k : Z,
            0 <= k < 8 ->
            Z.testbit t k
            = negb (Z.testbit (source_byte Demo.w0 Demo.small 2) k).
Proof.
  assert (Hfb : frameBuffer Demo.small 0 <> 0) by (simpl; lia).
  assert (Hi : 0 <= 2 < bufSize Demo.small)
    by (vm_compute; split; [discriminate | reflexivity]).
  destruct (transmitted_bytes_are_complements Demo.small 5 Demo.w0 Hfb)
    as [Hlen Hnth].
  split; [exact Hfb|]. split; [exact Hi|]. split; [exact Hlen|].
  exact (Hnth 2 Hi).
Defined.

(** C3.  With a null framebuffer pointer the call returns at once, for every
    budget, and the world it returns is the world it was given: no event
    is emitted, so no command, no data byte and no [startWrite]; the busy
    line is not read; no transaction is left open. *)
Theorem null_framebuffer_is_noop (epd : EPaper) (fuel : nat) (w : world) :
  frameBuffer epd 0 = 0 ->
  updatePartial fuel epd w = Done tt w
  /\ emitted fuel epd w = []
  /\ ~ In EStartWrite (emitted fuel epd w)
  /\ polls (final (updatePartial fuel epd w)) = polls w
  /\ open_transactions (emitted fuel epd w) = 0.
Proof.
  intros Hfb.
  rewrite emitted_null, updatePartial_null by assumption.
  simpl. repeat split. intros [].
Qed.

Lemma null_framebuffer_is_noop_witness :
  frameBuffer Demo.unready 0 = 0
  /\ updatePartial 0 Demo.unready Demo.stuck = Done tt Demo.stuck
  /\ emitted 0 Demo.unready Demo.stuck = []
  /\ ~ In EStartWrite (emitted 0 Demo.unready Demo.stuck)
  /\ polls (final (updatePartial 0 Demo.unready Demo.stuck)) = polls Demo.stuck
  /\ open_transactions (emitted 0 Demo.unready Demo.stuck) = 0.
Proof.
  split.
  - reflexivity.
  - apply (null_framebuffer_is_noop Demo.unready 0 Demo.stuck). reflexivity.
Defined.

(** C4.  With a non-null framebuffer the polling loop is reached, and the
    call returns (for some budget of readings, and then for every larger
    one, with the same world) if and only if some reading of the busy line
    from the first poll on is nonzero.  If every reading is zero, no budget
    suffices: the call is still spinning after any number of polls. *)
Theorem updatePartial_returns_iff_ready (epd : EPaper) (w : world) :
  frameBuffer epd 0 <> 0 ->
  ((exists fuel w', updatePartial fuel epd w = Done tt w')
   <-> (exists n, level w TFT_BUSY (polls w + n)%nat <> 0))
  /\ ((forall n, level w TFT_BUSY (polls w + n)%nat = 0) ->
      forall fuel, exists w', updatePartial fuel epd w = Hang w')
  /\ (forall fuel fuel' w',
        updatePartial fuel epd w = Done tt w' -> (fuel <= fuel')%nat ->
        updatePartial fuel' epd w = Done tt w').
Proof.
  intros Hfb. split; [split|split].
  - intros [fuel [w' H]].
    apply (returns_with_fuel epd Hfb) in H.
    destruct (ready_within_sound _ _ _ H) as [k [_ Hk]]. now exists k.
  - intros [n Hn]. exists (S n).
    apply (ready_gives_return epd Hfb).
    apply ready_within_complete with (k := n); [lia | assumption].
  - intros Hall fuel. apply (busy_gives_hang epd Hfb).
    now apply ready_within_all_busy.
  - intros fuel fuel' w'. apply (return_is_stable epd Hfb).
Qed.

Lemma updatePartial_returns_iff_ready_witness :
  (frameBuffer Demo.small 0 <> 0
   /\ (exists n, level Demo.w0 TFT_BUSY (polls Demo.w0 + n)%nat <> 0)
   /\ (exists fuel w', updatePartial fuel Demo.small Demo.w0 = Done tt w'))
  /\ ((forall n, level Demo.stuck TFT_BUSY (polls Demo.stuck + n)%nat = 0)
      /\ forall fuel,
           exists w', updatePartial fuel Demo.small Demo.stuck = Hang w').
Proof.
  assert (Hfb : frameBuffer Demo.small 0 <> 0) by (simpl; lia).
  assert (Hready : exists n,
             level Demo.w0 TFT_BUSY (polls Demo.w0 + n)%nat <> 0)
    by (exists 2%nat; vm_compute; lia).
  assert (Hbusy : forall n,
             level Demo.stuck TFT_BUSY (polls Demo.stuck + n)%nat = 0)
    by (intros n; reflexivity).
  split.
  - split; [exact Hfb|]. split; [exact Hready|].
    apply (proj1 (updatePartial_returns_iff_ready Demo.small Demo.w0 Hfb)).
    exact Hready.
  - split; [exact Hbusy|].
    apply (proj1 (proj2
             (updatePartial_returns_iff_ready Demo.small Demo.stuck Hfb))).
    exact Hbusy.
Defined.

(** C5.  When [width * height] is a multiple of 8, the transfer size
    satisfies [bufSize * 8 == width * height]: with the product as the
    routine's [int] arithmetic computes it, and with the exact product
    whenever that fits an [int] (as it does for all [int16_t]
    dimensions). *)
Theorem bufSize_times_8 (epd : EPaper) :
  (width epd * height epd) mod 8 = 0 ->
  bufSize epd * 8 = int_mul (width epd) (height epd)
  /\ (in_int (width epd * height epd) ->
      bufSize epd * 8 = width epd * height epd).
Proof.
  intros Hm.
  assert (H8 : bufSize epd * 8 = int_mul (width epd) (height epd)).
  { rewrite bufSize_quot. apply quot_8_exact.
    unfold int_mul. now rewrite to_int_mod8. }
  split; [exact H8|].
  intros Hin. rewrite H8. unfold int_mul. now apply to_int_id.
Qed.

Lemma bufSize_times_8_witness :
  (width Demo.panel * height Demo.panel) mod 8 = 0
  /\ in_int (width Demo.panel * height Demo.panel)
  /\ bufSize Demo.panel * 8 = int_mul (width Demo.panel) (height Demo.panel)
  /\ bufSize Demo.panel * 8 = width Demo.panel * height Demo.panel.
Proof.
  assert (Hm : (width Demo.panel * height Demo.panel) mod 8 = 0)
    by reflexivity.
  assert (Hin : in_int (width Demo.panel * height Demo.panel))
    by (vm_compute; split; discriminate).
  destruct (bufSize_times_8 Demo.panel Hm) as [Hc Hx].
  split; [exact Hm|]. split; [exact Hin|]. split; [exact Hc|].
  exact (Hx Hin).
Defined.

(** C6.  With a non-null framebuffer, every run of the routine starts with
    the one [startWrite] of the call; all commands, data bytes and delays
    lie after it; no second [startWrite] and no early [endWrite] occurs
    among them.  The one [endWrite] comes only once the busy wait is
    complete: a call that returns has polled the busy line, found it busy
    [n] times and then ready, and its [endWrite] is the last event, after
    the bus bytes and the [n + 1] delays; a call that has only read busy
    values has emitted no [endWrite] and holds the one open transaction.
    The call does return once the busy line reads ready, and no
    transaction stays open then. *)
Theorem transaction_bracket (epd : EPaper) (w : world) :
  frameBuffer epd 0 <> 0 ->
  (forall fuel : nat,
      exists inside : list event,
        Forall not_bracket inside
        /\ bus_events inside = bus_events (emitted fuel epd w)
        /\ emitted fuel epd w
           = EStartWrite :: inside
               ++ (if returned (updatePartial fuel epd w)
                   then [EEndWrite] else [])
        /\ open_transactions (emitted fuel epd w)
           = (if returned (updatePartial fuel epd w) then 0 else 1))
  /\ (forall n : nat,
         level w TFT_BUSY (polls w + n)%nat <> 0 ->
         exists fuel, returned (updatePartial fuel epd w) = true)
  /\ (forall fuel : nat,
         returned (updatePartial fuel epd w) = true ->
         exists n : nat,
           (n < fuel)%nat
           /\ level w TFT_BUSY (polls w + n)%nat <> 0
           /\ (forall j, (j < n)%nat ->
                         level w TFT_BUSY (polls w + j)%nat = 0)
           /\ polls (final (updatePartial fuel epd w))
              = (polls w + n + 1)%nat
           /\ emitted fuel epd w
              = EStartWrite :: bus_events (emitted fuel epd w)
                  ++ repeat (EDelay 10) (S n) ++ [EEndWrite])
  /\ (forall fuel : nat,
         returned (updatePartial fuel epd w) = false ->
         (forall j, (j < fuel)%nat ->
                    level w TFT_BUSY (polls w + j)%nat = 0)
         /\ polls (final (updatePartial fuel epd w)) = (polls w + fuel)%nat
         /\ ~ In EEndWrite (emitted fuel epd w)).
Proof.
  intros Hfb. split; [|split; [|split]].
  - intros fuel.
    set (k := busy_prefix fuel (level w TFT_BUSY) (polls w)).
    exists (tl (before_wait (mem w) epd) ++ repeat (EDelay 10) k).
    pose proof (not_bracket_after_start (mem w) epd k) as Hin.
    assert (Hem : emitted fuel epd w
                  = EStartWrite ::
                      (tl (before_wait (mem w) epd) ++ repeat (EDelay 10) k)
                      ++ (if returned (updatePartial fuel epd w)
                          then [EEndWrite] else [])).
    { rewrite emitted_run, returned_run by assumption.
      fold k. unfold before_wait at 1. cbn [tl].
      rewrite <- app_comm_cons. f_equal.
      unfold before_wait. cbn [tl]. now rewrite <- !app_assoc. }
    repeat split.
    + exact Hin.
    + rewrite Hem.
      change (bus_events (EStartWrite :: ?l)) with (bus_events l).
      rewrite (bus_events_app (_ ++ repeat _ k)).
      destruct (returned (updatePartial fuel epd w)).
      * change (bus_events [EEndWrite]) with (@nil event).
        now rewrite app_nil_r.
      * change (bus_events []) with (@nil event).
        now rewrite app_nil_r.
    + exact Hem.
    + rewrite Hem. cbn [open_transactions].
      rewrite open_transactions_app, (open_transactions_inside _ Hin).
      now destruct (returned (updatePartial fuel epd w)).
  - intros n Hn. exists (S n). rewrite returned_run by assumption.
    apply ready_within_complete with (k := n); [lia | assumption].
  - intros fuel Hret. rewrite returned_run in Hret by assumption.
    destruct (ready_within_first _ _ _ Hret) as [Hn [Hr Hb]].
    set (k := busy_prefix fuel (level w TFT_BUSY) (polls w)) in *.
    exists k. split; [exact Hn|]. split; [exact Hr|]. split; [exact Hb|].
    assert (Hem : emitted fuel epd w
                  = before_wait (mem w) epd
                      ++ repeat (EDelay 10) k ++ [EEndWrite]).
    { rewrite emitted_run by assumption. fold k. now rewrite Hret. }
    split.
    + rewrite updatePartial_run by assumption. cbv zeta. fold k.
      rewrite Hret. cbn [final polls]. lia.
    + rewrite (bus_events_emitted epd Hfb), <- bus_events_before_wait.
      rewrite Hem. rewrite before_wait_split at 1.
      cbn [repeat app]. f_equal. rewrite <- app_assoc. reflexivity.
  - intros fuel Hret. rewrite returned_run in Hret by assumption.
    split; [|split].
    + now apply not_ready_all_busy.
    + rewrite updatePartial_run by assumption. cbv zeta.
      rewrite Hret, (not_ready_spins _ _ _ Hret). reflexivity.
    + rewrite emitted_run by assumption. rewrite Hret, app_nil_r.
      set (k := busy_prefix fuel (level w TFT_BUSY) (polls w)).
      pose proof (not_bracket_after_start (mem w) epd k) as Hin.
      change (before_wait (mem w) epd)
        with (EStartWrite :: tl (before_wait (mem w) epd)).
      rewrite <- app_comm_cons. intros [Habs|Habs]; [discriminate|].
      rewrite Forall_forall in Hin.
      destruct (Hin _ Habs) as [_ Hne]. now apply Hne.
Qed.

Lemma transaction_bracket_witness :
  frameBuffer Demo.small 0 <> 0
  /\ level Demo.w0 TFT_BUSY (polls Demo.w0 + 2)%nat <> 0
  /\ (forall fuel : nat,
         exists inside : list event,
           Forall not_bracket inside
           /\ bus_events inside = bus_events (emitted fuel Demo.small Demo.w0)
           /\ emitted fuel Demo.small Demo.w0
              = EStartWrite :: inside
                  ++ (if returned (updatePartial fuel Demo.small Demo.w0)
                      then [EEndWrite] else [])
           /\ open_transactions (emitted fuel Demo.small Demo.w0)
              = (if returned (updatePartial fuel Demo.small Demo.w0)
                 then 0 else 1))
  /\ (exists fuel, returned (updatePartial fuel Demo.small Demo.w0) = true)
  /\ returned (updatePartial 5 Demo.small Demo.w0) = true
  /\ (exists n : nat,
         (n < 5)%nat
         /\ level Demo.w0 TFT_BUSY (polls Demo.w0 + n)%nat <> 0
         /\ (forall j, (j < n)%nat ->
                       level Demo.w0 TFT_BUSY (polls Demo.w0 + j)%nat = 0)
         /\ polls (final (updatePartial 5 Demo.small Demo.w0))
            = (polls Demo.w0 + n + 1)%nat
         /\ emitted 5 Demo.small Demo.w0
            = EStartWrite :: bus_events (emitted 5 Demo.small Demo.w0)
                ++ repeat (EDelay 10) (S n) ++ [EEndWrite])
  /\ returned (updatePartial 2 Demo.small Demo.w0) = false
  /\ (forall j, (j < 2)%nat ->
                level Demo.w0 TFT_BUSY (polls Demo.w0 + j)%nat = 0)
  /\ polls (final (updatePartial 2 Demo.small Demo.w0))
     = (polls Demo.w0 + 2)%nat
  /\ ~ In EEndWrite (emitted 2 Demo.small Demo.w0).
Proof.
  assert (Hfb : frameBuffer Demo.small 0 <> 0) by (simpl; lia).
  assert (Hready : level Demo.w0 TFT_BUSY (polls Demo.w0 + 2)%nat <> 0)
    by (vm_compute; lia).
  assert (Hret : returned (updatePartial 5 Demo.small Demo.w0) = true)
    by (vm_compute; reflexivity).
  assert (Hspin : returned (updatePartial 2 Demo.small Demo.w0) = false)
    by (vm_compute; reflexivity).
  destruct (transaction_bracket Demo.small Demo.w0 Hfb)
    as [Hshape [Hreturns [Hafter Hbefore]]].
  destruct (Hbefore 2%nat Hspin) as [Hbusy [Hpolls Hnoend]].
  split; [exact Hfb|]. split; [exact Hready|]. split; [exact Hshape|].
  split; [exact (Hreturns 2%nat Hready)|].
  split; [exact Hret|]. split; [exact (Hafter 5%nat Hret)|].
  split; [exact Hspin|]. split; [exact Hbusy|].
  split; [exact Hpolls | exact Hnoend].
Defined.

(** C7, as stated, fails on the 800 x 480 panel: the bytes before command
    0x13 are not five command/data pairs.  Whatever data each header command
    is paired with, five header commands, the data-block command and the
    trigger make seven commands, and the routine issues six. *)
Lemma panel_header_is_not_five_pairs :
  ~ (bufSize Demo.panel = 48000
     /\ exists (pairs : list (Z * list Z)) (data : list Z),
          length pairs = 5%nat
          /\ Z.of_nat (length data) = 48000
          /\ bus_events (emitted 3 Demo.panel Demo.w0)
             = flat_map (fun b => ECommand (fst b) :: map EData (snd b)) pairs
               ++ [ECommand 0x13] ++ map EData data ++ [ECommand 0x12]).
Proof.
  intros [_ [pairs [data [Hp [_ H]]]]].
  apply (f_equal commands) in H.
  rewrite commands_emitted in H by (simpl; lia).
  rewrite !commands_app, commands_blocks, commands_data in H.
  apply (f_equal (@length Z)) in H.
  rewrite !length_app, length_map, Hp in H.
  simpl in H. discriminate.
Qed.

(** C7, amended.  For a handle reporting 800 x 480 with a framebuffer,
    [bufSize] is 48000 and the bytes on the bus are four header commands
    carrying five parameter bytes between them (nine header bytes), the
    data-block command 0x13, 48000 data bytes, each the complement of its
    framebuffer byte, and the trigger command 0x12: 48011 bytes in all. *)
Theorem panel_800x480_stream (epd : EPaper) (fuel : nat) (w : world) :
  width epd = 800 -> height epd = 480 -> frameBuffer epd 0 <> 0 ->
  bufSize epd = 48000
  /\ exists data : list Z,
       Z.of_nat (length data) = 48000
       /\ (forall i : Z,
              0 <= i < 48000 ->
              nth_error data (Z.to_nat i) = Some (255 - source_byte w epd i))
       /\ bus_events (emitted fuel epd w)
          = [ECommand 0x00; EData 0x1F;
             ECommand 0x50; EData 0x10; EData 0x07;
             ECommand 0xE0; EData 0x02;
             ECommand 0xE5; EData 0x5A]
            ++ [ECommand 0x13] ++ map EData data ++ [ECommand 0x12]
       /\ Z.of_nat (length (bus_events (emitted fuel epd w))) = 48011.
Proof.
  intros Hw Hh Hfb.
  assert (Hb : bufSize epd = 48000).
  { unfold bufSize. now rewrite Hw, Hh. }
  split; [exact Hb|].
  exists (image_bytes (mem w) (frameBuffer epd 0) 0 (Z.to_nat (bufSize epd))).
  rewrite bus_events_emitted by assumption.
  repeat split.
  - rewrite image_bytes_length. lia.
  - intros i Hi. rewrite image_bytes_nth by lia.
    rewrite Z.add_0_l, Z2Nat.id by lia.
    now rewrite sent_byte_complement.
  - unfold config_sequence. cbn [app length].
    rewrite length_app, length_map, image_bytes_length.
    cbn [length]. lia.
Qed.

Lemma panel_800x480_stream_witness :
  width Demo.panel = 800 /\ height Demo.panel = 480
  /\ frameBuffer Demo.panel 0 <> 0
  /\ bufSize Demo.panel = 48000
  /\ exists data : list Z,
       Z.of_nat (length data) = 48000
       /\ (forall i : Z,
              0 <= i < 48000 ->
              nth_error data (Z.to_nat i)
              = Some (255 - source_byte Demo.w0 Demo.panel i))
       /\ bus_events (emitted 3 Demo.panel Demo.w0)
          = [ECommand 0x00; EData 0x1F;
             ECommand 0x50; EData 0x10; EData 0x07;
             ECommand 0xE0; EData 0x02;
             ECommand 0xE5; EData 0x5A]
            ++ [ECommand 0x13] ++ map EData data ++ [ECommand 0x12]
       /\ Z.of_nat (length (bus_events (emitted 3 Demo.panel Demo.w0)))
          = 48011.
Proof.
  split; [reflexivity|]. split; [reflexivity|]. split; [simpl; lia|].
  apply (panel_800x480_stream Demo.panel 3 Demo.w0);
    [reflexivity | reflexivity | simpl; lia].
Defined.

(** C8.  The routine only reads memory: in the world a call reaches,
    returned or still polling, every byte of memory, and so every
    framebuffer byte, is what it was before the call. *)
Theorem framebuffer_unchanged (epd : EPaper) (fuel : nat) (w : world) :
  mem (final (updatePartial fuel epd w)) = mem w
  /\ (forall i : Z,
         source_byte (final (updatePartial fuel epd w)) epd i
         = source_byte w epd i)
  /\ (forall w' : world,
         updatePartial fuel epd w = Done tt w' -> mem w' = mem w).
Proof.
  assert (H : mem (final (updatePartial fuel epd w)) = mem w).
  { destruct (Z.eq_dec (frameBuffer epd 0) 0) as [Hfb|Hfb].
    - now rewrite updatePartial_null.
    - rewrite updatePartial_run by assumption. cbv zeta.
      now destruct (ready_within fuel (level w TFT_BUSY) (polls w)). }
  repeat split.
  - exact H.
  - intros i. unfold source_byte. now rewrite H.
  - intros w' Hw'. now rewrite Hw' in H.
Qed.

(** C9.  A framebuffer with an empty geometry ([width * height == 0], so
    [bufSize == 0]) does not stop the cycle: the routine opens the
    transaction, sends the whole configuration sequence, command 0x13 with
    no data byte after it, the trigger 0x12, waits 10 ms and polls the busy
    line like any other call, returning exactly when a reading is ready. *)
Theorem empty_geometry_still_refreshes (epd : EPaper) (w : world) :
  frameBuffer epd 0 <> 0 ->
  width epd * height epd = 0 ->
  bufSize epd = 0
  /\ forall fuel : nat,
       bus_events (emitted fuel epd w)
       = [ECommand 0x00; EData 0x1F;
          ECommand 0x50; EData 0x10; EData 0x07;
          ECommand 0xE0; EData 0x02;
          ECommand 0xE5; EData 0x5A;
          ECommand 0x13; ECommand 0x12]
       /\ data_after 0x13 (bus_events (emitted fuel epd w)) = []
       /\ (exists k : nat,
              (k <= fuel)%nat
              /\ emitted fuel epd w
                 = [EStartWrite;
                    ECommand 0x00; EData 0x1F;
                    ECommand 0x50; EData 0x10; EData 0x07;
                    ECommand 0xE0; EData 0x02;
                    ECommand 0xE5; EData 0x5A;
                    ECommand 0x13; ECommand 0x12; EDelay 10]
                   ++ repeat (EDelay 10) k
                   ++ (if returned (updatePartial fuel epd w)
                       then [EEndWrite] else []))
       /\ ((0 < fuel)%nat ->
           (polls w < polls (final (updatePartial fuel epd w)))%nat)
       /\ (returned (updatePartial fuel epd w) = true
           <-> exists n : nat,
                 (n < fuel)%nat /\ level w TFT_BUSY (polls w + n)%nat <> 0).
Proof.
  intros Hfb Hz.
  assert (Hb : bufSize epd = 0).
  { unfold bufSize, int_mul. now rewrite Hz. }
  split; [exact Hb|]. intros fuel.
  assert (Hbw : before_wait (mem w) epd
                = [EStartWrite;
                   ECommand 0x00; EData 0x1F;
                   ECommand 0x50; EData 0x10; EData 0x07;
                   ECommand 0xE0; EData 0x02;
                   ECommand 0xE5; EData 0x5A;
                   ECommand 0x13; ECommand 0x12; EDelay 10]).
  { unfold before_wait. now rewrite Hb. }
  repeat split.
  - rewrite bus_events_emitted by assumption. now rewrite Hb.
  - rewrite data_after_emitted by assumption. now rewrite Hb.
  - exists (busy_prefix fuel (level w TFT_BUSY) (polls w)). split.
    + apply busy_prefix_le.
    + rewrite emitted_run, returned_run by assumption. now rewrite Hbw.
  - intros Hfuel. rewrite updatePartial_run by assumption. cbv zeta.
    destruct (ready_within fuel (level w TFT_BUSY) (polls w)) eqn:E;
      cbn [final polls]; [lia|].
    rewrite (not_ready_spins _ _ _ E). lia.
  - rewrite returned_run by assumption. apply ready_within_sound.
  - rewrite returned_run by assumption. intros [n [Hn Hr]].
    now apply ready_within_complete with (k := n).
Qed.

Lemma empty_geometry_still_refreshes_witness :
  frameBuffer Demo.empty 0 <> 0
  /\ width Demo.empty * height Demo.empty = 0
  /\ bufSize Demo.empty = 0
  /\ forall fuel : nat,
       bus_events (emitted fuel Demo.empty Demo.w0)
       = [ECommand 0x00; EData 0x1F;
          ECommand 0x50; EData 0x10; EData 0x07;
          ECommand 0xE0; EData 0x02;
          ECommand 0xE5; EData 0x5A;
          ECommand 0x13; ECommand 0x12]
       /\ data_after 0x13 (bus_events (emitted fuel Demo.empty Demo.w0)) = []
       /\ (exists k : nat,
              (k <= fuel)%nat
              /\ emitted fuel Demo.empty Demo.w0
                 = [EStartWrite;
                    ECommand 0x00; EData 0x1F;
                    ECommand 0x50; EData 0x10; EData 0x07;
                    ECommand 0xE0; EData 0x02;
                    ECommand 0xE5; EData 0x5A;
                    ECommand 0x13; ECommand 0x12; EDelay 10]
                   ++ repeat (EDelay 10) k
                   ++ (if returned (updatePartial fuel Demo.empty Demo.w0)
                       then [EEndWrite] else []))
       /\ ((0 < fuel)%nat ->
           (polls Demo.w0
            < polls (final (updatePartial fuel Demo.empty Demo.w0)))%nat)
       /\ (returned (updatePartial fuel Demo.empty Demo.w0) = true
           <-> exists n : nat,
                 (n < fuel)%nat
                 /\ level Demo.w0 TFT_BUSY (polls Demo.w0 + n)%nat <> 0).
Proof.
  split; [simpl; lia|]. split; [reflexivity|].
  apply (empty_geometry_still_refreshes Demo.empty Demo.w0);
    [simpl; lia | reflexivity].
Defined.

(** C10.  The bytes on the bus depend on the framebuffer contents and on
    the reported width and height only.  Two calls whose handles report the
    same dimensions and whose framebuffers (both present or both absent)
    hold the same [bufSize] bytes put the same commands and data on the
    bus, whatever the two busy lines read, however many readings each call
    is given, wherever the framebuffers lie in memory and whatever was
    emitted before. *)
Theorem bus_bytes_depend_on_framebuffer_and_size
    (epd1 epd2 : EPaper) (fuel1 fuel2 : nat) (w1 w2 : world) :
  width epd1 = width epd2 ->
  height epd1 = height epd2 ->
  (frameBuffer epd1 0 = 0 <-> frameBuffer epd2 0 = 0) ->
  (forall i : Z,
      0 <= i < bufSize epd1 ->
      source_byte w1 epd1 i = source_byte w2 epd2 i) ->
  bus_events (emitted fuel1 epd1 w1) = bus_events (emitted fuel2 epd2 w2).
Proof.
  intros Hw Hh Hnull Hsame.
  assert (Hb : bufSize epd2 = bufSize epd1).
  { unfold bufSize. now rewrite Hw, Hh. }
  destruct (Z.eq_dec (frameBuffer epd1 0) 0) as [H1|H1].
  - pose proof (proj1 Hnull H1) as H2.
    now rewrite !emitted_null.
  - assert (H2 : frameBuffer epd2 0 <> 0).
    { intros H2. apply H1. now apply Hnull. }
    rewrite !bus_events_emitted by assumption.
    rewrite Hb. do 4 f_equal.
    apply image_bytes_ext. intros j Hj. apply Hsame. lia.
Qed.

Lemma bus_bytes_depend_on_framebuffer_and_size_witness :
  width Demo.small = width Demo.small
  /\ height Demo.small = height Demo.small
  /\ (frameBuffer Demo.small 0 = 0 <-> frameBuffer Demo.small 0 = 0)
  /\ (forall i : Z,
         0 <= i < bufSize Demo.small ->
         source_byte Demo.w0 Demo.small i = source_byte Demo.stuck Demo.small i)
  /\ bus_events (emitted 5 Demo.small Demo.w0)
     = bus_events (emitted 2 Demo.small Demo.stuck).
Proof.
  assert (Hs : forall i : Z,
             0 <= i < bufSize Demo.small ->
             source_byte Demo.w0 Demo.small i
             = source_byte Demo.stuck Demo.small i)
    by (intros i _; reflexivity).
  split; [reflexivity|]. split; [reflexivity|].
  split; [split; intros H; exact H|].
  split; [exact Hs|].
  apply (bus_bytes_depend_on_framebuffer_and_size
           Demo.small Demo.small 5 2 Demo.w0 Demo.stuck);
    [reflexivity | reflexivity | split; intros H; exact H | exact Hs].
Defined.

(** * Further properties *)

(** ** Cost of a call *)

Section Cost.

Lemma first_ready_run (lv : nat -> Z) :
  forall (fuel s n : nat),
    lv (s + n)%nat <> 0 ->
    (forall j, (j < n)%nat -> lv (s + j)%nat = 0) ->
    (n < fuel)%nat ->
    ready_within fuel lv s = true /\ busy_prefix fuel lv s = n.
Proof.
  induction fuel as [|fuel IH]; intros s n Hr Hb Hn; [lia|].
  cbn [ready_within busy_prefix].
  destruct n as [|n].
  - rewrite Nat.add_0_r in Hr. apply Z.eqb_neq in Hr. now rewrite Hr.
  - pose proof (Hb 0%nat ltac:(lia)) as H0.
    rewrite Nat.add_0_r in H0. apply Z.eqb_eq in H0. rewrite H0.
    destruct (IH (S s) n) as [H1 H2].
    + now rewrite Nat.add_succ_comm.
    + intros j Hj. rewrite Nat.add_succ_comm. apply Hb. lia.
    + lia.
    + now rewrite H1, H2.
Qed.

Lemma total_delay_app (a b : list event) :
  total_delay (a ++ b) = total_delay a + total_delay b.
Proof.
  induction a as [|e a IH]; [reflexivity|].
  destruct e; cbn [total_delay app]; rewrite IH; lia.
Qed.

Lemma total_delay_data (ds : list Z) : total_delay (map EData ds) = 0.
Proof.
  induction ds as [|d ds IH]; [reflexivity | exact IH].
Qed.

Lemma total_delay_delays (ms : Z) (k : nat) :
  total_delay (repeat (EDelay ms) k) = ms * Z.of_nat k.
Proof.
  induction k as [|k IH]; [cbn [repeat total_delay]; lia|].
  cbn [repeat total_delay]. rewrite IH. lia.
Qed.

Lemma total_delay_before_wait (m : Z -> byte) (epd : EPaper) :
  total_delay (before_wait m epd) = 10.
Proof.
  unfold before_wait, config_sequence. cbn [app total_delay].
  rewrite total_delay_app, total_delay_data. reflexivity.
Qed.

Lemma trace_final (epd : EPaper) (fuel : nat) (w : world) :
  trace (final (updatePartial fuel epd w)) = trace w ++ emitted fuel epd w.
Proof.
  destruct (Z.eq_dec (frameBuffer epd 0) 0) as [Hfb|Hfb].
  - rewrite emitted_null, updatePartial_null by assumption.
    now rewrite app_nil_r.
  - rewrite emitted_run, updatePartial_run by assumption. cbv zeta.
    destruct (ready_within fuel (level w TFT_BUSY) (polls w));
      cbn [final trace]; rewrite ?app_nil_r; reflexivity.
Qed.

End Cost.

(** X1.  With a framebuffer, a call returns at the first ready reading of
    the busy line.  If the [n] readings before it report busy, the call
    polls [n + 1] times and no further, and its events are [startWrite],
    the bus bytes with no delay between them, then [n + 1] delays of 10 ms
    (one after the trigger, one per busy reading), then [endWrite]:
    [10 * (n + 1)] ms of waiting in all. *)
Theorem returns_at_first_ready
    (epd : EPaper) (w : world) (n fuel : nat) :
  frameBuffer epd 0 <> 0 ->
  level w TFT_BUSY (polls w + n)%nat <> 0 ->
  (forall j, (j < n)%nat -> level w TFT_BUSY (polls w + j)%nat = 0) ->
  (n < fuel)%nat ->
  exists w' : world,
    updatePartial fuel epd w = Done tt w'
    /\ polls w' = (polls w + n + 1)%nat
    /\ emitted fuel epd w
       = EStartWrite :: bus_events (emitted fuel epd w)
           ++ repeat (EDelay 10) (S n) ++ [EEndWrite]
    /\ total_delay (emitted fuel epd w) = 10 * (Z.of_nat n + 1).
Proof.
  intros Hfb Hr Hb Hn.
  destruct (first_ready_run (level w TFT_BUSY) fuel (polls w) n Hr Hb Hn)
    as [Hready Hk].
  assert (Hem : emitted fuel epd w
                = before_wait (mem w) epd
                    ++ repeat (EDelay 10) n ++ [EEndWrite]).
  { rewrite emitted_run by assumption. now rewrite Hready, Hk. }
  rewrite updatePartial_run by assumption. cbv zeta. rewrite Hready, Hk.
  eexists. split; [reflexivity|]. cbn [polls]. split; [lia|]. split.
  - rewrite (bus_events_emitted epd Hfb), <- bus_events_before_wait.
    rewrite Hem. rewrite before_wait_split at 1.
    cbn [repeat app]. f_equal. rewrite <- app_assoc. reflexivity.
  - rewrite Hem, !total_delay_app, total_delay_before_wait,
      total_delay_delays.
    cbn [total_delay]. lia.
Qed.

Lemma returns_at_first_ready_witness :
  frameBuffer Demo.small 0 <> 0
  /\ level Demo.w0 TFT_BUSY (polls Demo.w0 + 2)%nat <> 0
  /\ (forall j, (j < 2)%nat ->
                 level Demo.w0 TFT_BUSY (polls Demo.w0 + j)%nat = 0)
  /\ (2 < 7)%nat
  /\ exists w' : world,
       updatePartial 7 Demo.small Demo.w0 = Done tt w'
       /\ polls w' = (polls Demo.w0 + 2 + 1)%nat
       /\ emitted 7 Demo.small Demo.w0
          = EStartWrite :: bus_events (emitted 7 Demo.small Demo.w0)
              ++ repeat (EDelay 10) 3 ++ [EEndWrite]
       /\ total_delay (emitted 7 Demo.small Demo.w0) = 10 * (Z.of_nat 2 + 1).
Proof.
  assert (Hfb : frameBuffer Demo.small 0 <> 0) by (simpl; lia).
  assert (Hr : level Demo.w0 TFT_BUSY (polls Demo.w0 + 2)%nat <> 0)
    by (vm_compute; lia).
  assert (Hb : forall j, (j < 2)%nat ->
                         level Demo.w0 TFT_BUSY (polls Demo.w0 + j)%nat = 0).
  { intros j Hj. destruct j as [|[|j]]; [reflexivity | reflexivity | lia]. }
  assert (Hn : (2 < 7)%nat) by lia.
  split; [exact Hfb|]. split; [exact Hr|]. split; [exact Hb|].
  split; [exact Hn|].
  exact (returns_at_first_ready Demo.small Demo.w0 2 7 Hfb Hr Hb Hn).
Defined.

(** ** The image on the bus *)

Section Image.

Lemma lxor_sent_byte (m : Z -> byte) (p i : Z) :
  Z.lxor (sent_byte m p i) 0xFF = Z.of_N (Byte.to_N (m (p + i))).
Proof.
  rewrite sent_byte_complement.
  destruct (m (p + i)); reflexivity.
Qed.

Lemma image_bytes_decoded (m : Z -> byte) (p : Z) :
  forall (n : nat) (i : Z),
    map (fun t => Z.lxor t 0xFF) (image_bytes m p i n)
    = map (fun k => Z.of_N (Byte.to_N (m (p + (i + Z.of_nat k))))) (seq 0 n).
Proof.
  induction n as [|n IH]; intros i; [reflexivity|].
  cbn [image_bytes map seq]. rewrite lxor_sent_byte, IH.
  rewrite <- seq_shift, map_map. f_equal.
  - now rewrite Z.add_0_r.
  - apply map_ext. intros k. do 3 f_equal. lia.
Qed.

Lemma to_nat_quot_8 (p : Z) : Z.to_nat (Z.quot p 8) = Z.to_nat (p / 8).
Proof.
  destruct (Z.le_gt_cases 0 p) as [Hp|Hp].
  - now rewrite Z.quot_div_nonneg by lia.
  - assert (Hq : Z.quot p 8 <= 0).
    { pose proof (Z.quot_opp_l p 8 ltac:(lia)) as Ho.
      pose proof (Z.quot_pos (- p) 8 ltac:(lia) ltac:(lia)). lia. }
    assert (Hd : p / 8 < 0) by (apply Z.div_lt_upper_bound; lia).
    generalize dependent (Z.quot p 8). generalize dependent (p / 8).
    intros a Ha b Hb. lia.
Qed.

Lemma bufSize_range (epd : EPaper) : - 2 ^ 28 <= bufSize epd < 2 ^ 28.
Proof.
  rewrite bufSize_quot.
  pose proof (to_int_in_int (width epd * height epd)) as Hin.
  unfold int_mul. set (p := to_int (width epd * height epd)) in *.
  unfold in_int, INT_MIN, INT_MAX in Hin.
  destruct (Z.le_gt_cases 0 p) as [Hp|Hp].
  - rewrite Z.quot_div_nonneg by lia. split.
    + pose proof (Z.div_pos p 8 Hp ltac:(lia)). lia.
    + apply Z.div_lt_upper_bound; lia.
  - pose proof (Z.quot_opp_l p 8 ltac:(lia)) as Ho.
    rewrite Z.quot_div_nonneg in Ho by lia.
    pose proof (Z.div_pos (- p) 8 ltac:(lia) ltac:(lia)).
    assert (- p / 8 <= 2 ^ 28) by (apply Z.div_le_upper_bound; lia).
    lia.
Qed.

End Image.

(** X2.  The image can be read back from the bus: with a framebuffer,
    flipping the bits of the data bytes that follow command 0x13 (exclusive
    or with 0xFF) gives the framebuffer bytes [fb[0]], ..., [fb[bufSize - 1]]
    in order, none lost, none added. *)
Theorem complement_recovers_framebuffer
    (epd : EPaper) (fuel : nat) (w : world) :
  frameBuffer epd 0 <> 0 ->
  map (fun t => Z.lxor t 0xFF)
      (data_after 0x13 (bus_events (emitted fuel epd w)))
  = map (fun k => source_byte w epd (Z.of_nat k))
        (seq 0 (Z.to_nat (bufSize epd))).
Proof.
  intros Hfb. rewrite data_after_emitted by assumption.
  rewrite image_bytes_decoded. apply map_ext. intros k.
  unfold source_byte. now rewrite Z.add_0_l.
Qed.

Lemma complement_recovers_framebuffer_witness :
  frameBuffer Demo.small 0 <> 0
  /\ map (fun t => Z.lxor t 0xFF)
         (data_after 0x13 (bus_events (emitted 5 Demo.small Demo.w0)))
     = map (fun k => source_byte Demo.w0 Demo.small (Z.of_nat k))
           (seq 0 (Z.to_nat (bufSize Demo.small))).
Proof.
  split.
  - simpl. lia.
  - apply (complement_recovers_framebuffer Demo.small 5 Demo.w0). simpl. lia.
Defined.

(** X3.  How much goes over the bus.  With a framebuffer and a product
    [width * height] that fits an [int], the call sends 11 command and
    parameter bytes plus one data byte per whole group of 8 pixels:
    [max 0 (width * height / 8)] data bytes.  A product below 8, negative
    ones included, sends no image data at all, and up to 7 pixels that do
    not fill a byte are left out. *)
Theorem bus_byte_count (epd : EPaper) (fuel : nat) (w : world) :
  frameBuffer epd 0 <> 0 ->
  in_int (width epd * height epd) ->
  Z.of_nat (length (data_after 0x13 (bus_events (emitted fuel epd w))))
  = Z.max 0 (width epd * height epd / 8)
  /\ Z.of_nat (length (bus_events (emitted fuel epd w)))
     = 11 + Z.max 0 (width epd * height epd / 8)
  /\ (width epd * height epd < 8 ->
      data_after 0x13 (bus_events (emitted fuel epd w)) = [])
  /\ (0 <= width epd * height epd ->
      let sent :=
        Z.of_nat (length (data_after 0x13 (bus_events (emitted fuel epd w))))
      in 8 * sent <= width epd * height epd < 8 * sent + 8).
Proof.
  intros Hfb Hin.
  assert (Hn : Z.to_nat (bufSize epd)
               = Z.to_nat (width epd * height epd / 8)).
  { rewrite bufSize_quot. unfold int_mul.
    rewrite to_int_id by assumption. apply to_nat_quot_8. }
  assert (Hlen : Z.of_nat
                   (length (data_after 0x13
                              (bus_events (emitted fuel epd w))))
                 = Z.max 0 (width epd * height epd / 8)).
  { rewrite data_after_emitted, image_bytes_length, Hn by assumption. lia. }
  split; [exact Hlen|]. split; [|split].
  - rewrite bus_events_emitted by assumption.
    unfold config_sequence. cbn [app length].
    rewrite length_app, length_map, image_bytes_length, Hn.
    cbn [length]. lia.
  - intros Hsmall.
    assert (Hd : width epd * height epd / 8 <= 0).
    { assert (width epd * height epd / 8 < 1)
        by (apply Z.div_lt_upper_bound; lia).
      lia. }
    apply length_zero_iff_nil. lia.
  - intros Hpos. cbv zeta. rewrite Hlen.
    pose proof (Z.div_pos _ 8 Hpos ltac:(lia)).
    pose proof (Z.mul_div_le (width epd * height epd) 8 ltac:(lia)).
    pose proof (Z.mul_succ_div_gt (width epd * height epd) 8 ltac:(lia)).
    lia.
Qed.

Lemma bus_byte_count_witness :
  frameBuffer Demo.small 0 <> 0
  /\ in_int (width Demo.small * height Demo.small)
  /\ Z.of_nat (length (data_after 0x13
                         (bus_events (emitted 5 Demo.small Demo.w0))))
     = Z.max 0 (width Demo.small * height Demo.small / 8)
  /\ Z.of_nat (length (bus_events (emitted 5 Demo.small Demo.w0)))
     = 11 + Z.max 0 (width Demo.small * height Demo.small / 8).
Proof.
  assert (Hfb : frameBuffer Demo.small 0 <> 0) by (simpl; lia).
  assert (Hin : in_int (width Demo.small * height Demo.small))
    by (vm_compute; split; discriminate).
  destruct (bus_byte_count Demo.small 5 Demo.w0 Hfb Hin) as [H1 [H2 _]].
  split; [exact Hfb|]. split; [exact Hin|]. split; [exact H1 | exact H2].
Defined.

(** X4.  Whatever dimensions the handle reports, [bufSize] lies in
    [-2^28, 2^28): the loop sends fewer than 2^28 data bytes, and its
    counter [i], which ends at [bufSize] when that is positive, stays far
    from the end of [int], so [i++] never overflows. *)
Theorem bufSize_bounded (epd : EPaper) :
  - 2 ^ 28 <= bufSize epd < 2 ^ 28
  /\ Z.of_nat (Z.to_nat (bufSize epd)) < 2 ^ 28
  /\ in_int (Z.max 0 (bufSize epd) + 1).
Proof.
  pose proof (bufSize_range epd) as H.
  unfold in_int, INT_MIN, INT_MAX. lia.
Qed.

(** ** Calling twice *)

Lemma open_transactions_emitted (epd : EPaper) (fuel : nat) (w : world) :
  frameBuffer epd 0 <> 0 ->
  open_transactions (emitted fuel epd w)
  = if ready_within fuel (level w TFT_BUSY) (polls w) then 0 else 1.
Proof.
  intros Hfb. rewrite emitted_run by assumption.
  set (k := busy_prefix fuel (level w TFT_BUSY) (polls w)).
  pose proof (not_bracket_after_start (mem w) epd k) as Hin.
  change (before_wait (mem w) epd)
    with (EStartWrite :: tl (before_wait (mem w) epd)).
  rewrite <- app_comm_cons. cbn [open_transactions].
  rewrite app_assoc, open_transactions_app.
  rewrite (open_transactions_inside _ Hin).
  now destruct (ready_within fuel (level w TFT_BUSY) (polls w)).
Qed.

(** X5.  Two calls in a row on a handle with a framebuffer.  When the pair
    returns, each call returned; the second polled the busy line from
    where the first stopped; the framebuffer being untouched, the second
    call put on the bus the very bytes of the first; the trace is the
    events of the first call followed by those of the second; memory is as
    before; and no transaction is left open. *)
Theorem updatePartial_twice_repeats
    (epd : EPaper) (fuel1 fuel2 : nat) (w w2 : world) :
  frameBuffer epd 0 <> 0 ->
  updatePartial_twice fuel1 fuel2 epd w = Done tt w2 ->
  exists w1 : world,
    updatePartial fuel1 epd w = Done tt w1
    /\ updatePartial fuel2 epd w1 = Done tt w2
    /\ (polls w < polls w1 < polls w2)%nat
    /\ bus_events (emitted fuel2 epd w1) = bus_events (emitted fuel1 epd w)
    /\ trace w2 = trace w ++ emitted fuel1 epd w ++ emitted fuel2 epd w1
    /\ mem w2 = mem w
    /\ open_transactions (emitted fuel1 epd w ++ emitted fuel2 epd w1) = 0.
Proof.
  intros Hfb Htwice. unfold updatePartial_twice, bind in Htwice.
  destruct (updatePartial fuel1 epd w) as [[] w1|w1] eqn:E1;
    [|discriminate].
  exists w1. split; [reflexivity|]. split; [exact Htwice|].
  pose proof (returns_with_fuel epd Hfb _ _ _ E1) as Rd1.
  pose proof (returns_with_fuel epd Hfb _ _ _ Htwice) as Rd2.
  pose proof (trace_final epd fuel1 w) as Ht1. rewrite E1 in Ht1.
  pose proof (trace_final epd fuel2 w1) as Ht2. rewrite Htwice in Ht2.
  cbn [final] in Ht1, Ht2.
  pose proof (updatePartial_run epd fuel1 w Hfb) as R1.
  pose proof (updatePartial_run epd fuel2 w1 Hfb) as R2.
  cbv zeta in R1, R2. rewrite E1, Rd1 in R1. rewrite Htwice, Rd2 in R2.
  assert (Hm1 : mem w1 = mem w)
    by (apply (f_equal (fun r => mem (final r))) in R1; exact R1).
  assert (Hm2 : mem w2 = mem w1)
    by (apply (f_equal (fun r => mem (final r))) in R2; exact R2).
  assert (Hp1 : (polls w < polls w1)%nat).
  { apply (f_equal (fun r => polls (final r))) in R1.
    cbn [final polls] in R1. lia. }
  assert (Hp2 : (polls w1 < polls w2)%nat).
  { apply (f_equal (fun r => polls (final r))) in R2.
    cbn [final polls] in R2. lia. }
  repeat split; try assumption.
  - rewrite !bus_events_emitted by assumption. now rewrite Hm1.
  - rewrite Ht2, Ht1. now rewrite app_assoc.
  - now rewrite Hm2.
  - rewrite open_transactions_app.
    rewrite !open_transactions_emitted by assumption.
    now rewrite Rd1, Rd2.
Qed.

Lemma updatePartial_twice_repeats_witness :
  frameBuffer Demo.small 0 <> 0
  /\ updatePartial_twice 3 1 Demo.small Demo.w0
     = Done tt (final (updatePartial_twice 3 1 Demo.small Demo.w0))
  /\ exists w1 : world,
       updatePartial 3 Demo.small Demo.w0 = Done tt w1
       /\ updatePartial 1 Demo.small w1
          = Done tt (final (updatePartial_twice 3 1 Demo.small Demo.w0))
       /\ (polls Demo.w0 < polls w1
           < polls (final (updatePartial_twice 3 1 Demo.small Demo.w0)))%nat
       /\ bus_events (emitted 1 Demo.small w1)
          = bus_events (emitted 3 Demo.small Demo.w0)
       /\ trace (final (updatePartial_twice 3 1 Demo.small Demo.w0))
          = trace Demo.w0 ++ emitted 3 Demo.small Demo.w0
              ++ emitted 1 Demo.small w1
       /\ mem (final (updatePartial_twice 3 1 Demo.small Demo.w0))
          = mem Demo.w0
       /\ open_transactions
            (emitted 3 Demo.small Demo.w0 ++ emitted 1 Demo.small w1) = 0.
Proof.
  assert (Hfb : frameBuffer Demo.small 0 <> 0) by (simpl; lia).
  assert (Hrun : updatePartial_twice 3 1 Demo.small Demo.w0
                 = Done tt (final (updatePartial_twice 3 1 Demo.small
                                                       Demo.w0)))
    by (vm_compute; reflexivity).
  split; [exact Hfb|]. split; [exact Hrun|].
  exact (updatePartial_twice_repeats Demo.small 3 1 Demo.w0 _ Hfb Hrun).
Defined.
